(** * mergebro: the merge-method fallback and the driving loop

    Shallow embedding of [src/processing/merge.rs] (the merger) and of the
    polling loop in [src/main.rs]. *)

From Stdlib Require Import String List Arith Lia Bool.
Open Scope string_scope.
Open Scope list_scope.
Import ListNotations.

(** ** Data model *)

(** [github::MergeMethod] (derives [PartialEq]). *)
Inductive MergeMethod : Type :=
| Merge
| Squash
| Rebase.

Definition MergeMethod_eqb (a b : MergeMethod) : bool :=
  match a, b with
  | Merge, Merge | Squash, Squash | Rebase, Rebase => true
  | _, _ => false
  end.

Definition MergeMethod_eq_dec (a b : MergeMethod) : {a = b} + {a <> b}.
Proof. decide equality. Defined.

(** The fields of [github::PullRequest] the merger reads. *)
Record PullRequest : Type := {
  title : string;
  body : option string;
  head_sha : string
}.

(** [github::client::MergeRequestBody]. *)
Record MergeRequestBody : Type := {
  sha : string;
  commit_title : string;
  commit_message : option string;
  merge_method : MergeMethod
}.

(** Rust's [Result]. *)
Inductive result (A E : Type) : Type :=
| Ok (a : A)
| Err (e : E).
Arguments Ok {A E} a.
Arguments Err {A E} e.

(** [processing::merge::MergeResult]. *)
Inductive MergeResult : Type :=
| Success
| Conflict.

(** ** Vec helpers *)

(** [Iterator::position]. *)
Fixpoint position {A} (p : A -> bool) (l : list A) : option nat :=
  match l with
  | [] => None
  | x :: xs => if p x then Some 0 else option_map S (position p xs)
  end.

Fixpoint replace_nth {A} (l : list A) (i : nat) (v : A) : list A :=
  match l, i with
  | [], _ => []
  | _ :: xs, 0 => v :: xs
  | x :: xs, S i' => x :: replace_nth xs i' v
  end.

(** [<[T]>::swap]: panics (here [None]) when an index is out of bounds. *)
Definition vec_swap {A} (l : list A) (a b : nat) : option (list A) :=
  match nth_error l a, nth_error l b with
  | Some xa, Some xb => Some (replace_nth (replace_nth l a xb) b xa)
  | _, _ => None
  end.

(** [Option::unwrap] followed by the rest of the computation; [None] is a
    panic. *)
Definition unwrap_then {A B} (o : option A) (k : A -> option B) : option B :=
  match o with
  | Some a => k a
  | None => None
  end.

(** ** [DefaultPullRequestMerger::build_merge_methods] *)

Definition build_merge_methods (default_method : MergeMethod)
    : option (list MergeMethod) :=
  let methods := [Squash; Merge; Rebase] in
  unwrap_then
    (position (fun element => MergeMethod_eqb element default_method) methods)
    (fun default_index => vec_swap methods default_index 0).

(** The spec's reading of [build_merge_methods]: [Squash; Merge; Rebase]
    with [default] moved to the front, the others kept in their order. *)
Definition spec_rotate_to_front (default : MergeMethod) : list MergeMethod :=
  default :: filter (fun m => negb (MergeMethod_eqb m default))
                    [Squash; Merge; Rebase].

(** ** The merger *)

Section Merger.

(** [client::Error], its classification methods [method_not_allowed()] and
    [conflict()], [processing::Error] and the [From] conversion used by
    [e.into()]; the client module is not part of the embedded sources, so
    they are kept abstract. *)
Variable ClientError : Type.
Variable Error : Type.
Variable method_not_allowed : ClientError -> bool.
Variable conflict : ClientError -> bool.
Variable error_of_client : ClientError -> Error.

(** A [GithubClient]'s [merge_pull_request]: its answer may depend on every
    request submitted earlier in the same call (oldest first), on the pull
    request and on the current request. Any sequence of responses is such a
    function. *)
Definition GithubClient : Type :=
  list MergeRequestBody -> PullRequest -> MergeRequestBody -> result unit ClientError.

(** The submissions made so far, each with the response it received. *)
Definition Submissions : Type := list (MergeRequestBody * result unit ClientError).

(** The observable effect of a merger: the result and the submissions. *)
Definition MergeOutcome : Type := (result MergeResult Error * Submissions)%type.

Record DefaultPullRequestMerger : Type := {
  merge_methods : list MergeMethod
}.

(** [DefaultPullRequestMerger::new] ([build_merge_methods] may panic). *)
Definition new_DefaultPullRequestMerger (default_method : MergeMethod)
    : option DefaultPullRequestMerger :=
  option_map (fun ms => {| merge_methods := ms |}) (build_merge_methods default_method).

(** [DefaultPullRequestMerger::build_merge_message]. *)
Definition build_merge_message (pull_request : PullRequest) (method : MergeMethod)
    : option string :=
  match method with
  | Squash => body pull_request
  | _ => None
  end.

(** The [MergeRequestBody] built by [merge_with_method]. *)
Definition request_body (pull_request : PullRequest) (method : MergeMethod)
    : MergeRequestBody :=
  {| sha := head_sha pull_request;
     commit_title := title pull_request;
     commit_message := build_merge_message pull_request method;
     merge_method := method |}.

(** [DefaultPullRequestMerger::merge_with_method]: one submission, recorded
    in the submission log. *)
Definition merge_with_method (pull_request : PullRequest) (github : GithubClient)
    (method : MergeMethod) (log : Submissions)
    : result unit ClientError * Submissions :=
  let req := request_body pull_request method in
  let r := github (map fst log) pull_request req in
  (r, log ++ [(req, r)]).

(** The [for method in &self.merge_methods] loop of
    [DefaultPullRequestMerger::merge]. *)
Fixpoint merge_loop (pull_request : PullRequest) (github : GithubClient)
    (methods : list MergeMethod) (log : Submissions) : MergeOutcome :=
  match methods with
  | [] => (Ok Conflict, log)
  | method :: rest =>
      let (r, log') := merge_with_method pull_request github method log in
      match r with
      | Ok _ => (Ok Success, log')
      | Err e =>
          if method_not_allowed e then merge_loop pull_request github rest log'
          else if conflict e then (Ok Conflict, log')
          else (Err (error_of_client e), log')
      end
  end.

(** [<DefaultPullRequestMerger as PullRequestMerger>::merge]. *)
Definition DefaultPullRequestMerger_merge (self : DefaultPullRequestMerger)
    (pull_request : PullRequest) (github : GithubClient) (log : Submissions)
    : MergeOutcome :=
  merge_loop pull_request github (merge_methods self) log.

(** What became of the [i]-th submission of a call of the loop over
    [methods], given the response [resp] it received, the call's result [r]
    and the submissions [new] the call made: the arm of the [match] taken. *)
Definition attempt_outcome (methods : list MergeMethod) (new : Submissions)
    (r : result MergeResult Error) (i : nat) (resp : result unit ClientError)
    : Prop :=
  match resp with
  | Ok _ => r = Ok Success /\ length new = S i
  | Err e =>
      if method_not_allowed e then
        (S i < length methods -> S i < length new) /\
        (S i = length methods -> r = Ok Conflict /\ length new = S i)
      else if conflict e then r = Ok Conflict /\ length new = S i
      else r = Err (error_of_client e) /\ length new = S i
  end.

(** [DummyPullRequestMerger]. *)
Inductive DummyPullRequestMerger : Type := dummy_merger.

(** [<DummyPullRequestMerger as PullRequestMerger>::merge]: logs and
    returns [Ok(Success)]. *)
Definition DummyPullRequestMerger_merge (self : DummyPullRequestMerger)
    (_pull_request : PullRequest) (_github : GithubClient) (log : Submissions)
    : MergeOutcome :=
  (Ok Success, log).

End Merger.

(** ** The driving loop of [main] *)

(** [DirectorState]. *)
Inductive DirectorState : Type :=
| Waiting
| Done.

(** What the loop does that can be observed from outside. *)
Inductive LoopEvent : Type :=
| RunCalled                 (** [director.run().await] *)
| Slept (secs : nat)        (** [sleep(sleep_duration).await] *)
| ErrorReported.            (** [error!("Error processing pull request: ...")] *)

Section DrivingLoop.

Variable Error : Type.

(** The [k]-th call of [director.run()] (the director is the loop's only
    state, owned by [main]; its results are arbitrary). *)
Variable run : nat -> result DirectorState Error.

(** [config.poll.delay_seconds] ([u8], widened to [u64] seconds). *)
Variable delay_seconds : nat.

Definition sleep_duration : nat := delay_seconds.

(** The [loop { ... }] of [main], cut after [fuel] iterations; the boolean
    says whether the loop was left by [break]. [k] counts the calls of
    [run] made so far. *)
Fixpoint main_loop (fuel k : nat) : list LoopEvent * bool :=
  match fuel with
  | 0 => ([], false)
  | S fuel' =>
      match run k with
      | Ok Waiting =>
          let (events, exited) := main_loop fuel' (S k) in
          (RunCalled :: Slept sleep_duration :: events, exited)
      | Ok Done => ([RunCalled], true)
      | Err _ => ([RunCalled; ErrorReported], true)
      end
  end.

(** [n] rounds of run-then-sleep. *)
Fixpoint waiting_rounds (n : nat) : list LoopEvent :=
  match n with
  | 0 => []
  | S n' => RunCalled :: Slept sleep_duration :: waiting_rounds n'
  end.

(** How a run that stops the loop is logged. *)
Definition exit_events (r : result DirectorState Error) : list LoopEvent :=
  match r with
  | Err _ => [RunCalled; ErrorReported]
  | _ => [RunCalled]
  end.

End DrivingLoop.

(** ** Configuration ([src/config.rs]) *)

(** [MergeConfig] and its [Default]. *)
Record MergeConfig : Type := {
  default_method : MergeMethod
}.

Definition MergeConfig_default : MergeConfig :=
  {| default_method := Merge |}.

(** [PollConfig] and its [Default]; [delay_seconds] is a [u8]. *)
Record PollConfig : Type := {
  delay_seconds : nat
}.

Definition PollConfig_default : PollConfig :=
  {| delay_seconds := 30 |}.

(** ** Assembly in [main] ([src/main.rs]) *)

(** The mergers [main] can pick, behind [Arc<dyn PullRequestMerger>]. *)
Inductive AnyMerger : Type :=
| DummyMerger (m : DummyPullRequestMerger)
| DefaultMerger (m : DefaultPullRequestMerger).

(** [merge] through the trait object. *)
Definition AnyMerger_merge (ClientError Error : Type)
    (method_not_allowed conflict : ClientError -> bool)
    (error_of_client : ClientError -> Error)
    (merger : AnyMerger) (pull_request : PullRequest)
    (github : GithubClient ClientError) (log : Submissions ClientError)
    : MergeOutcome ClientError Error :=
  match merger with
  | DummyMerger m => DummyPullRequestMerger_merge ClientError Error m pull_request github log
  | DefaultMerger m =>
      DefaultPullRequestMerger_merge ClientError Error method_not_allowed conflict
        error_of_client m pull_request github log
  end.

(** The [let merger = if options.dry_run { ... } else { ... }] of [main];
    [None] is a panic of [DefaultPullRequestMerger::new]. *)
Definition select_merger (dry_run : bool) (merge : MergeConfig) : option AnyMerger :=
  if dry_run then Some (DummyMerger dummy_merger)
  else option_map DefaultMerger (new_DefaultPullRequestMerger (default_method merge)).

(** The boxed steps built by [build_steps]; the shared GitHub client handle
    they all hold is left out. *)
Inductive Step (WorkflowRunner ReviewsStep : Type) : Type :=
| CheckCurrentStateStep
| CheckBehindMaster
| CheckBuildFailed (workflow_runners : list WorkflowRunner)
| CheckReviewsStep (step : ReviewsStep).
Arguments CheckCurrentStateStep {WorkflowRunner ReviewsStep}.
Arguments CheckBehindMaster {WorkflowRunner ReviewsStep}.
Arguments CheckBuildFailed {WorkflowRunner ReviewsStep} workflow_runners.
Arguments CheckReviewsStep {WorkflowRunner ReviewsStep} step.

Section BuildSteps.

Variables WorkflowRunner ReviewsConfig ReviewsStep InitError : Type.

(** [CheckReviewsStep::new] (in the steps module, not embedded here). *)
Variable new_CheckReviewsStep : ReviewsConfig -> result ReviewsStep InitError.

(** [build_steps]; [Err e] is the [error!] followed by [exit(1)]. *)
Definition build_steps (workflow_runners : list WorkflowRunner)
    (reviews_config : ReviewsConfig) (ignore_reviews : bool)
    : result (list (Step WorkflowRunner ReviewsStep)) InitError :=
  let steps := [CheckCurrentStateStep; CheckBehindMaster;
                CheckBuildFailed workflow_runners] in
  if negb ignore_reviews then
    match new_CheckReviewsStep reviews_config with
    | Ok step => Ok (steps ++ [CheckReviewsStep step])
    | Err e => Err e
    end
  else Ok steps.

End BuildSteps.

(** ** The client's error classification *)

(** Modelled from the spec: [client::Error] with its [method_not_allowed()]
    and [conflict()] classification, which are not among the embedded
    sources. The spec's [ClassifiedError] distinguishes a method-not-allowed
    error, a conflict (head sha mismatch) and any other error. *)
Inductive ClassifiedError (Other : Type) : Type :=
| MethodNotAllowed
| HeadShaConflict
| OtherError (e : Other).
Arguments MethodNotAllowed {Other}.
Arguments HeadShaConflict {Other}.
Arguments OtherError {Other} e.

Definition classified_method_not_allowed {Other} (e : ClassifiedError Other) : bool :=
  match e with MethodNotAllowed => true | _ => false end.

Definition classified_conflict {Other} (e : ClassifiedError Other) : bool :=
  match e with HeadShaConflict => true | _ => false end.

(** ** Small helpers for the statements *)

Definition is_ok {A E} (r : result A E) : bool :=
  match r with Ok _ => true | Err _ => false end.

Definition count_ok {A E B} (l : list (B * result A E)) : nat :=
  length (filter (fun p => is_ok (snd p)) l).

Definition is_success {E} (r : result MergeResult E) : bool :=
  match r with Ok Success => true | _ => false end.

(** ** Concrete clients used to exercise the statements *)

(** The GitHub merge endpoint answers 405 when the merge method is not
    allowed and 409 when the head sha does not match. *)
Definition http_method_not_allowed (status : nat) : bool := Nat.eqb status 405.
Definition http_conflict (status : nat) : bool := Nat.eqb status 409.

(** A client that replays a fixed sequence of responses, one per
    submission, and succeeds once the sequence is exhausted. *)
Definition replay_client (responses : list (result unit nat)) : GithubClient nat :=
  fun previous _pull_request _request => nth (length previous) responses (Ok tt).

Definition sample_pull_request : PullRequest :=
  {| title := "Add retry to the poller"; body := Some "Retries failed polls.";
     head_sha := "3f2c9d1" |}.

Definition merger_of (default_method : MergeMethod) : DefaultPullRequestMerger :=
  {| merge_methods := match build_merge_methods default_method with
                      | Some ms => ms
                      | None => []
                      end |}.

(** [merge] with the 405/409 classification and errors kept as status. *)
Definition http_merge (self : DefaultPullRequestMerger) (github : GithubClient nat)
    : MergeOutcome nat nat :=
  DefaultPullRequestMerger_merge nat nat http_method_not_allowed http_conflict
    (fun status => status) self sample_pull_request github [].

(** A coarser classification, under which every 4xx answer, 405 included,
    also counts as a conflict. *)
Definition any_client_error (status : nat) : bool :=
  Nat.leb 400 status && Nat.ltb status 500.

(** Scenarios: [Merge] is the default and only [Squash] is allowed; a
    conflict on the second method; every method refused; a server error on
    the second method; and, under the coarser classification, a 405 before
    a success. *)
Definition scenario_fallback : MergeOutcome nat nat :=
  http_merge (merger_of Merge) (replay_client [Err 405; Ok tt]).
Definition scenario_conflict : MergeOutcome nat nat :=
  http_merge (merger_of Merge) (replay_client [Err 405; Err 409]).
Definition scenario_exhausted : MergeOutcome nat nat :=
  http_merge (merger_of Rebase) (replay_client [Err 405; Err 405; Err 405]).
Definition scenario_fatal : MergeOutcome nat nat :=
  http_merge (merger_of Rebase) (replay_client [Err 405; Err 500]).
Definition scenario_overlap : MergeOutcome nat nat :=
  DefaultPullRequestMerger_merge nat nat http_method_not_allowed any_client_error
    (fun status => status) (merger_of Squash) sample_pull_request
    (replay_client [Err 405; Ok tt]) [].

(** [main] outside dry-run mode with the default merge configuration,
    against a repository that only allows squash merges. *)
Definition scenario_main_default : MergeOutcome nat nat :=
  AnyMerger_merge nat nat http_method_not_allowed http_conflict
    (fun status => status) (DefaultMerger (merger_of Merge)) sample_pull_request
    (replay_client [Err 405; Ok tt]) [].

(** A client answering with classified errors: [Merge] is refused as not
    allowed, then [Squash] meets a head sha mismatch. *)
Definition replay_classified (responses : list (result unit (ClassifiedError nat)))
    : GithubClient (ClassifiedError nat) :=
  fun previous _pull_request _request => nth (length previous) responses (Ok tt).

Definition scenario_classified_conflict
    : MergeOutcome (ClassifiedError nat) (ClassifiedError nat) :=
  DefaultPullRequestMerger_merge (ClassifiedError nat) (ClassifiedError nat)
    classified_method_not_allowed classified_conflict (fun e => e)
    (merger_of Merge) sample_pull_request
    (replay_classified [Err MethodNotAllowed; Err HeadShaConflict]) [].

(** A director that asks to wait twice, then is done. *)
Definition sample_runs (k : nat) : result DirectorState nat :=
  if Nat.ltb k 2 then Ok Waiting else Ok Done.

(** ** Facts about the fallback loop *)

Section MergerFacts.

Variable ClientError : Type.
Variable Error : Type.
Variable method_not_allowed : ClientError -> bool.
Variable conflict : ClientError -> bool.
Variable error_of_client : ClientError -> Error.

Local Abbreviation merge_loop :=
  (merge_loop ClientError Error method_not_allowed conflict error_of_client).
Local Abbreviation GithubClient := (GithubClient ClientError).
Local Abbreviation Submissions := (Submissions ClientError).

Variable pull_request : PullRequest.
Variable github : GithubClient.

Lemma merge_loop_extends (ms : list MergeMethod) (l0 : Submissions) :
  exists new, snd (merge_loop pull_request github ms l0) = l0 ++ new /\
    length new <= length ms /\ (ms <> [] -> new <> []).
Proof.
  revert l0; induction ms as [|m rest IH]; intros l0; simpl.
  - exists []; rewrite app_nil_r; split; [reflexivity | split; [simpl; lia | auto]].
  - destruct (github (map fst l0) pull_request (request_body pull_request m))
      as [a|e] eqn:G.
    + eexists; split; [reflexivity | split; [simpl; lia | discriminate]].
    + destruct (method_not_allowed e).
      * destruct (IH (l0 ++ [(request_body pull_request m, Err e)]))
          as (new' & Hs & Hl & _).
        exists ((request_body pull_request m, Err e) :: new').
        rewrite Hs, <- app_assoc; simpl; split; [reflexivity | split; [lia | discriminate]].
      * destruct (conflict e);
          eexists; (split; [reflexivity | split; [simpl; lia | discriminate]]).
Qed.

Lemma merge_loop_nil (l0 new : Submissions) r :
  merge_loop pull_request github [] l0 = (r, l0 ++ new) ->
  new = [] /\ r = Ok Conflict.
Proof.
  simpl; intros H; injection H as Hr Hl.
  split; [|auto].
  rewrite <- (app_nil_r l0) in Hl at 1; apply app_inv_head in Hl; auto.
Qed.

(** One iteration of the loop: the four arms of the [match]. *)
Lemma merge_loop_cons (m : MergeMethod) (rest : list MergeMethod)
    (l0 new : Submissions) r :
  merge_loop pull_request github (m :: rest) l0 = (r, l0 ++ new) ->
  let req := request_body pull_request m in
  let x := (req, github (map fst l0) pull_request req) in
  (exists a, snd x = Ok a /\ new = [x] /\ r = Ok Success) \/
  (exists e new', snd x = Err e /\ method_not_allowed e = true /\
     new = x :: new' /\
     merge_loop pull_request github rest (l0 ++ [x]) = (r, (l0 ++ [x]) ++ new')) \/
  (exists e, snd x = Err e /\ method_not_allowed e = false /\
     conflict e = true /\ new = [x] /\ r = Ok Conflict) \/
  (exists e, snd x = Err e /\ method_not_allowed e = false /\
     conflict e = false /\ new = [x] /\ r = Err (error_of_client e)).
Proof.
  intros H req x; subst req x; simpl in H.
  set (req := request_body pull_request m) in *.
  destruct (github (map fst l0) pull_request req) as [a|e] eqn:G; simpl.
  - injection H as Hr Hl; apply app_inv_head in Hl.
    left; exists a; auto.
  - destruct (method_not_allowed e) eqn:Hm.
    + right; left.
      destruct (merge_loop_extends rest (l0 ++ [(req, Err e)]))
        as (new' & Hs & _ & _).
      exists e, new'.
      destruct (merge_loop pull_request github rest (l0 ++ [(req, Err e)]))
        as [r' l'] eqn:Hrec; simpl in Hs; subst l'.
      rewrite <- app_assoc in H; simpl in H; injection H as Hr Hl.
      apply app_inv_head in Hl; subst; auto.
    + destruct (conflict e) eqn:Hc; injection H as Hr Hl; apply app_inv_head in Hl.
      * right; right; left; exists e; auto.
      * right; right; right; exists e; auto.
Qed.

Local Abbreviation attempt_outcome :=
  (attempt_outcome ClientError Error method_not_allowed conflict error_of_client).

Ltac loop_case H :=
  apply merge_loop_cons in H;
  destruct H as [(a & Hx & Hnew & Hr)
                | [(e & new' & Hx & Hm & Hnew & Hrec)
                | [(e & Hx & Hm & Hc & Hnew & Hr)
                  | (e & Hx & Hm & Hc & Hnew & Hr)]]];
  simpl in Hx.

(** The [i]-th submission of a call is made with the [i]-th method, on the
    responses seen so far, and decides the call as [attempt_outcome]
    says. *)
Lemma merge_loop_attempt (ms : list MergeMethod) (l0 new : Submissions) r i p :
  merge_loop pull_request github ms l0 = (r, l0 ++ new) ->
  nth_error new i = Some p ->
  exists m, nth_error ms i = Some m /\ fst p = request_body pull_request m /\
    snd p = github (map fst (l0 ++ firstn i new)) pull_request (fst p) /\
    attempt_outcome ms new r i (snd p).
Proof.
  revert l0 new i p; induction ms as [|m rest IH]; intros l0 new i p H Hi.
  - apply merge_loop_nil in H; destruct H as [-> _].
    destruct i; discriminate.
  - loop_case H; subst new.
    + destruct i as [|[|i]]; simpl in Hi; try discriminate.
      injection Hi as <-; exists m; simpl; rewrite app_nil_r.
      split; [reflexivity|split; [reflexivity|split; [reflexivity|]]].
      rewrite Hx; simpl; auto.
    + destruct i as [|i]; simpl in Hi.
      * injection Hi as <-; exists m; simpl; rewrite app_nil_r.
        split; [reflexivity|split; [reflexivity|split; [reflexivity|]]].
        rewrite Hx; simpl; rewrite Hm.
        destruct (merge_loop_extends rest
                    (l0 ++ [(request_body pull_request m,
                             github (map fst l0) pull_request
                               (request_body pull_request m))]))
          as (new'' & Hs & Hle & Hne).
        rewrite Hrec in Hs; simpl in Hs; apply app_inv_head in Hs; subst new''.
        split.
        -- intros Hlt; destruct new' as [|q new']; simpl; [|lia].
           destruct rest; simpl in Hlt; [lia|].
           exfalso; apply Hne; [discriminate | reflexivity].
        -- intros Heq; destruct rest; simpl in Heq; [|lia].
           apply merge_loop_nil in Hrec; destruct Hrec as [-> ->]; auto.
      * destruct (IH _ _ _ _ Hrec Hi) as (m' & Hm' & Hf & Hs & Ho).
        exists m'; split; [exact Hm'|split; [exact Hf|split]].
        -- rewrite Hs, <- app_assoc; reflexivity.
        -- unfold attempt_outcome in *.
           destruct (snd p) as [u|e']; simpl in *.
           ++ destruct Ho; split; [assumption|lia].
           ++ destruct (method_not_allowed e'); [|destruct (conflict e')];
                simpl in *.
              ** destruct Ho as [Ho1 Ho2]; split; intros Hlt.
                 --- specialize (Ho1 ltac:(lia)); lia.
                 --- destruct (Ho2 ltac:(lia)); split; [assumption|lia].
              ** destruct Ho; split; [assumption|lia].
              ** destruct Ho; split; [assumption|lia].
    + destruct i as [|[|i]]; simpl in Hi; try discriminate.
      injection Hi as <-; exists m; simpl; rewrite app_nil_r.
      split; [reflexivity|split; [reflexivity|split; [reflexivity|]]].
      rewrite Hx; simpl; rewrite Hm, Hc; auto.
    + destruct i as [|[|i]]; simpl in Hi; try discriminate.
      injection Hi as <-; exists m; simpl; rewrite app_nil_r.
      split; [reflexivity|split; [reflexivity|split; [reflexivity|]]].
      rewrite Hx; simpl; rewrite Hm, Hc; auto.
Qed.

(** A call contains a successful submission exactly when it reports
    [Success], and then exactly one. *)
Lemma merge_loop_count_ok (ms : list MergeMethod) (l0 new : Submissions) r :
  merge_loop pull_request github ms l0 = (r, l0 ++ new) ->
  count_ok new = if is_success r then 1 else 0.
Proof.
  revert l0 new; induction ms as [|m rest IH]; intros l0 new H.
  - apply merge_loop_nil in H; destruct H as [-> ->]; reflexivity.
  - loop_case H; subst new; unfold count_ok in *; simpl in *; rewrite Hx; simpl.
    + subst r; reflexivity.
    + apply (IH _ _ Hrec).
    + subst r; reflexivity.
    + subst r; reflexivity.
Qed.

(** The requests of a call are those of a prefix of the method list. *)
Lemma merge_loop_requests (ms : list MergeMethod) (l0 new : Submissions) r :
  merge_loop pull_request github ms l0 = (r, l0 ++ new) ->
  map fst new = map (request_body pull_request) (firstn (length new) ms).
Proof.
  revert l0 new; induction ms as [|m rest IH]; intros l0 new H.
  - apply merge_loop_nil in H; destruct H as [-> _]; reflexivity.
  - loop_case H; subst new; simpl; try reflexivity.
    f_equal; apply (IH _ _ Hrec).
Qed.

End MergerFacts.

(** ** [build_merge_methods] *)

(** C1 (counterexample): with [Rebase] as the default, the result is not the
    spec's rotation: [Squash] and [Merge] come out as [Merge; Squash]. *)
Lemma build_merge_methods_rebase_not_rotation :
  build_merge_methods Rebase <> Some (spec_rotate_to_front Rebase).
Proof. vm_compute; discriminate. Qed.

(** C1 (amended): [build_merge_methods default] swaps [default] with the
    first element [Squash] of [Squash; Merge; Rebase]: the default comes
    first and [Squash] takes the default's former place. *)
Theorem build_merge_methods_swaps_default_to_front (default : MergeMethod) :
  build_merge_methods default =
  Some (match default with
        | Squash => [Squash; Merge; Rebase]
        | Merge => [Merge; Squash; Rebase]
        | Rebase => [Rebase; Merge; Squash]
        end).
Proof. destruct default; reflexivity. Qed.

(** C2: for each of the three defaults, [build_merge_methods] does not
    panic and returns three methods, the default first, each of [Squash],
    [Merge], [Rebase] exactly once. *)
Theorem build_merge_methods_permutation (default : MergeMethod) :
  exists methods, build_merge_methods default = Some methods /\
    length methods = 3 /\ hd_error methods = Some default /\
    forall m, count_occ MergeMethod_eq_dec methods m = 1.
Proof.
  rewrite build_merge_methods_swaps_default_to_front.
  eexists; split; [reflexivity|].
  destruct default; (split; [reflexivity | split; [reflexivity|]]);
    intros []; reflexivity.
Qed.

(** ** [DefaultPullRequestMerger::merge] *)

(** C3: a call of [merge] makes at most one successful submission: exactly
    one when it returns [Success], none otherwise; a successful submission
    is the last one made, and the call then returns [Success]; the methods
    are tried in the order of [merge_methods]. *)
Theorem merge_stops_at_first_success
    (ClientError Error : Type) (method_not_allowed conflict : ClientError -> bool)
    (error_of_client : ClientError -> Error)
    (self : DefaultPullRequestMerger) (pull_request : PullRequest)
    (github : GithubClient ClientError) r log :
  DefaultPullRequestMerger_merge ClientError Error method_not_allowed conflict
    error_of_client self pull_request github [] = (r, log) ->
  count_ok log = (if is_success r then 1 else 0) /\
  (forall i p, nth_error log i = Some p -> is_ok (snd p) = true ->
     length log = S i /\ r = Ok Success) /\
  map (fun p => merge_method (fst p)) log = firstn (length log) (merge_methods self).
Proof.
  unfold DefaultPullRequestMerger_merge; intros H.
  change log with ([] ++ log) in H.
  split; [eapply merge_loop_count_ok; exact H|split].
  - intros i p Hi Hok.
    destruct (merge_loop_attempt _ _ _ _ _ _ _ _ _ _ _ _ _ H Hi)
      as (m & _ & _ & _ & Ho).
    unfold attempt_outcome in Ho; destruct (snd p); [|discriminate].
    destruct Ho; split; assumption.
  - apply merge_loop_requests in H.
    rewrite <- map_map, H, map_map; simpl.
    rewrite <- (map_id (firstn _ _)) at 2; apply map_ext; reflexivity.
Qed.

(** ** [DummyPullRequestMerger::merge] *)

(** C7: the dry-run merger returns [Ok(Success)] for any pull request and
    client, and submits nothing. *)
Theorem dummy_merge_success_no_submission (ClientError Error : Type)
    (self : DummyPullRequestMerger) (pull_request : PullRequest)
    (github : GithubClient ClientError) (log : Submissions ClientError) :
  DummyPullRequestMerger_merge ClientError Error self pull_request github log
  = (Ok Success, log).
Proof. reflexivity. Qed.

Section MergeClaims.

Variable ClientError : Type.
Variable Error : Type.
Variable method_not_allowed : ClientError -> bool.
Variable conflict : ClientError -> bool.
Variable error_of_client : ClientError -> Error.
Variable self : DefaultPullRequestMerger.
Variable pull_request : PullRequest.
Variable github : GithubClient ClientError.

Lemma merge_call_loop r log :
  DefaultPullRequestMerger_merge ClientError Error method_not_allowed conflict
    error_of_client self pull_request github [] = (r, log) ->
  merge_loop ClientError Error method_not_allowed conflict error_of_client
    pull_request github (merge_methods self) [] = (r, [] ++ log).
Proof. exact (fun H => H). Qed.

(** After a submission refused as not allowed, the next method of the list,
    if there is one, is submitted. *)
Lemma merge_next_attempt r log i req e :
  DefaultPullRequestMerger_merge ClientError Error method_not_allowed conflict
    error_of_client self pull_request github [] = (r, log) ->
  nth_error log i = Some (req, Err e) ->
  method_not_allowed e = true ->
  S i < length (merge_methods self) ->
  exists p, nth_error log (S i) = Some p /\
    nth_error (merge_methods self) (S i) = Some (merge_method (fst p)).
Proof.
  intros H%merge_call_loop Hi Hm Hlt.
  destruct (merge_loop_attempt _ _ _ _ _ _ _ _ _ _ _ _ _ H Hi)
    as (m & _ & _ & _ & Ho).
  unfold attempt_outcome in Ho; simpl in Ho; rewrite Hm in Ho.
  destruct Ho as [Ho _]; specialize (Ho Hlt).
  destruct (nth_error log (S i)) as [p|] eqn:Hp;
    [|apply nth_error_None in Hp; lia].
  exists p; split; [reflexivity|].
  destruct (merge_loop_attempt _ _ _ _ _ _ _ _ _ _ _ _ _ H Hp)
    as (m' & Hm' & Hf & _).
  rewrite Hf; exact Hm'.
Qed.

(** A submission refused as a conflict, and not as a method not allowed,
    makes [merge] return [Ok(Conflict)] at once: it is the last submission
    of the call. *)
Theorem merge_conflict_returns_immediately r log i req e :
  DefaultPullRequestMerger_merge ClientError Error method_not_allowed conflict
    error_of_client self pull_request github [] = (r, log) ->
  nth_error log i = Some (req, Err e) ->
  method_not_allowed e = false ->
  conflict e = true ->
  r = Ok Conflict /\ length log = S i.
Proof.
  intros H%merge_call_loop Hi Hm Hc.
  destruct (merge_loop_attempt _ _ _ _ _ _ _ _ _ _ _ _ _ H Hi)
    as (m & _ & _ & _ & Ho).
  unfold attempt_outcome in Ho; simpl in Ho; rewrite Hm, Hc in Ho; exact Ho.
Qed.

(** C5: a submission refused as not allowed is followed by the submission
    of the next method; when it was the last method, [merge] returns
    [Ok(Conflict)] with every method tried. *)
Theorem merge_not_allowed_continues r log i req e :
  DefaultPullRequestMerger_merge ClientError Error method_not_allowed conflict
    error_of_client self pull_request github [] = (r, log) ->
  nth_error log i = Some (req, Err e) ->
  method_not_allowed e = true ->
  (S i < length (merge_methods self) ->
     exists p, nth_error log (S i) = Some p /\
       nth_error (merge_methods self) (S i) = Some (merge_method (fst p))) /\
  (S i = length (merge_methods self) -> r = Ok Conflict /\ length log = S i).
Proof.
  intros H Hi Hm; split; [intros; eapply merge_next_attempt; eassumption|].
  apply merge_call_loop in H.
  destruct (merge_loop_attempt _ _ _ _ _ _ _ _ _ _ _ _ _ H Hi)
    as (m & _ & _ & _ & Ho).
  unfold attempt_outcome in Ho; simpl in Ho; rewrite Hm in Ho.
  destruct Ho as [_ Ho]; exact Ho.
Qed.

(** C6: every submitted request carries the pull request's head sha and
    title, the pull request body as message for [Squash] and no message
    for [Merge] and [Rebase], and a method of the merger's list. *)
Theorem merge_request_fields r log req resp :
  DefaultPullRequestMerger_merge ClientError Error method_not_allowed conflict
    error_of_client self pull_request github [] = (r, log) ->
  In (req, resp) log ->
  sha req = head_sha pull_request /\
  commit_title req = title pull_request /\
  commit_message req = match merge_method req with
                       | Squash => body pull_request
                       | Merge | Rebase => None
                       end /\
  In (merge_method req) (merge_methods self).
Proof.
  intros H%merge_call_loop Hin.
  apply In_nth_error in Hin; destruct Hin as [i Hi].
  destruct (merge_loop_attempt _ _ _ _ _ _ _ _ _ _ _ _ _ H Hi)
    as (m & Hm & Hf & _); simpl in Hf; subst req.
  split; [reflexivity|split; [reflexivity|split]].
  - destruct m; reflexivity.
  - eapply nth_error_In; exact Hm.
Qed.

(** C8: a submission refused neither as not allowed nor as a conflict ends
    [merge] with that error, converted, as [Err]; it is the last
    submission of the call. *)
Theorem merge_other_error_fatal r log i req e :
  DefaultPullRequestMerger_merge ClientError Error method_not_allowed conflict
    error_of_client self pull_request github [] = (r, log) ->
  nth_error log i = Some (req, Err e) ->
  method_not_allowed e = false ->
  conflict e = false ->
  r = Err (error_of_client e) /\ length log = S i.
Proof.
  intros H%merge_call_loop Hi Hm Hc.
  destruct (merge_loop_attempt _ _ _ _ _ _ _ _ _ _ _ _ _ H Hi)
    as (m & _ & _ & _ & Ho).
  unfold attempt_outcome in Ho; simpl in Ho; rewrite Hm, Hc in Ho; exact Ho.
Qed.

(** C10: an error classified both as not allowed and as a conflict is
    handled as not allowed: the next method, if any, is submitted. *)
Theorem merge_not_allowed_precedes_conflict r log i req e :
  DefaultPullRequestMerger_merge ClientError Error method_not_allowed conflict
    error_of_client self pull_request github [] = (r, log) ->
  nth_error log i = Some (req, Err e) ->
  method_not_allowed e = true ->
  conflict e = true ->
  S i < length (merge_methods self) ->
  exists p, nth_error log (S i) = Some p /\
    nth_error (merge_methods self) (S i) = Some (merge_method (fst p)).
Proof. intros H Hi Hm _ Hlt; eapply merge_next_attempt; eassumption. Qed.

End MergeClaims.

(** ** The driving loop *)

Section LoopClaims.

Variable Error : Type.
Variable run : nat -> result DirectorState Error.
Variable delay_seconds : nat.

Local Abbreviation main_loop := (main_loop Error run delay_seconds).
Local Abbreviation waiting_rounds := (waiting_rounds delay_seconds).

Lemma main_loop_stops (fuel k n : nat) :
  n < fuel ->
  (forall i, i < n -> run (k + i) = Ok Waiting) ->
  run (k + n) <> Ok Waiting ->
  main_loop fuel k = (waiting_rounds n ++ exit_events Error (run (k + n)), true).
Proof.
  revert k n; induction fuel as [|fuel IH]; intros k n Hn Hw Hstop; [lia|].
  simpl; destruct n as [|n].
  - rewrite Nat.add_0_r in Hstop |- *.
    destruct (run k) as [[]|e]; [congruence | reflexivity | reflexivity].
  - rewrite <- (Nat.add_0_r k) at 1; rewrite (Hw 0 ltac:(lia)).
    replace (k + S n) with (S k + n) in * by lia.
    rewrite (IH (S k) n); [reflexivity | lia | |].
    + intros i Hi; rewrite Nat.add_succ_l, <- Nat.add_succ_r; apply Hw; lia.
    + exact Hstop.
Qed.

Lemma main_loop_keeps_waiting (fuel k : nat) :
  (forall i, i < fuel -> run (k + i) = Ok Waiting) ->
  main_loop fuel k = (waiting_rounds fuel, false).
Proof.
  revert k; induction fuel as [|fuel IH]; intros k Hw; [reflexivity|].
  simpl; rewrite <- (Nat.add_0_r k) at 1; rewrite (Hw 0 ltac:(lia)).
  rewrite (IH (S k)); [reflexivity|].
  intros i Hi; rewrite Nat.add_succ_l, <- Nat.add_succ_r; apply Hw; lia.
Qed.

(** C9: the loop calls [run], and after each [Ok(Waiting)] sleeps for the
    configured delay and calls [run] again; it leaves the loop at the first
    run returning [Ok(Done)] or [Err] (reporting the error), and it does not
    leave it while every run returns [Ok(Waiting)]. *)
Theorem main_loop_exits_exactly_on_done_or_err (fuel : nat) :
  (forall n, n < fuel ->
     (forall i, i < n -> run i = Ok Waiting) ->
     run n <> Ok Waiting ->
     main_loop fuel 0 = (waiting_rounds n ++ exit_events Error (run n), true)) /\
  ((forall i, i < fuel -> run i = Ok Waiting) ->
     main_loop fuel 0 = (waiting_rounds fuel, false)).
Proof.
  split.
  - intros n Hn Hw Hstop; apply (main_loop_stops fuel 0 n Hn Hw Hstop).
  - intros Hw; apply (main_loop_keeps_waiting fuel 0 Hw).
Qed.

End LoopClaims.

(** ** Witnesses and counterexamples on concrete inputs *)

Lemma merge_stops_at_first_success_witness :
  count_ok (snd scenario_fallback) =
    (if is_success (fst scenario_fallback) then 1 else 0) /\
  (forall i p, nth_error (snd scenario_fallback) i = Some p ->
     is_ok (snd p) = true ->
     length (snd scenario_fallback) = S i /\ fst scenario_fallback = Ok Success) /\
  map (fun p => merge_method (fst p)) (snd scenario_fallback) =
    firstn (length (snd scenario_fallback)) (merge_methods (merger_of Merge)).
Proof.
  apply (merge_stops_at_first_success nat nat http_method_not_allowed
           http_conflict (fun status => status) (merger_of Merge)
           sample_pull_request (replay_client [Err 405; Ok tt])).
  reflexivity.
Defined.

Lemma merge_not_allowed_continues_witness :
  (3 < length (merge_methods (merger_of Rebase)) ->
     exists p, nth_error (snd scenario_exhausted) 3 = Some p /\
       nth_error (merge_methods (merger_of Rebase)) 3 = Some (merge_method (fst p))) /\
  (3 = length (merge_methods (merger_of Rebase)) ->
     fst scenario_exhausted = Ok Conflict /\ length (snd scenario_exhausted) = 3).
Proof.
  apply (merge_not_allowed_continues nat nat http_method_not_allowed
           http_conflict (fun status => status) (merger_of Rebase)
           sample_pull_request (replay_client [Err 405; Err 405; Err 405])
           (fst scenario_exhausted) (snd scenario_exhausted) 2
           (request_body sample_pull_request Squash) 405);
    reflexivity.
Defined.

Lemma merge_request_fields_witness :
  let req := request_body sample_pull_request Squash in
  sha req = head_sha sample_pull_request /\
  commit_title req = title sample_pull_request /\
  commit_message req = match merge_method req with
                       | Squash => body sample_pull_request
                       | Merge | Rebase => None
                       end /\
  In (merge_method req) (merge_methods (merger_of Merge)).
Proof.
  apply (merge_request_fields nat nat http_method_not_allowed
           http_conflict (fun status => status) (merger_of Merge)
           sample_pull_request (replay_client [Err 405; Ok tt])
           (fst scenario_fallback) (snd scenario_fallback)
           (request_body sample_pull_request Squash) (Ok tt)).
  - reflexivity.
  - vm_compute; right; left; reflexivity.
Defined.

Lemma merge_other_error_fatal_witness :
  fst scenario_fatal = Err 500 /\ length (snd scenario_fatal) = 2.
Proof.
  apply (merge_other_error_fatal nat nat http_method_not_allowed
           http_conflict (fun status => status) (merger_of Rebase)
           sample_pull_request (replay_client [Err 405; Err 500])
           (fst scenario_fatal) (snd scenario_fatal) 1
           (request_body sample_pull_request Merge) 500);
    reflexivity.
Defined.

Lemma merge_not_allowed_precedes_conflict_witness :
  exists p, nth_error (snd scenario_overlap) 1 = Some p /\
    nth_error (merge_methods (merger_of Squash)) 1 = Some (merge_method (fst p)).
Proof.
  apply (merge_not_allowed_precedes_conflict nat nat http_method_not_allowed
           any_client_error (fun status => status) (merger_of Squash)
           sample_pull_request (replay_client [Err 405; Ok tt])
           (fst scenario_overlap) (snd scenario_overlap) 0
           (request_body sample_pull_request Squash) 405);
    reflexivity || (vm_compute; lia).
Defined.

Lemma main_loop_exits_exactly_on_done_or_err_witness :
  main_loop nat sample_runs 30 5 0 =
  (waiting_rounds 30 2 ++ exit_events nat (sample_runs 2), true).
Proof.
  apply (proj1 (main_loop_exits_exactly_on_done_or_err nat sample_runs 30 5) 2).
  - lia.
  - intros i Hi; unfold sample_runs; apply Nat.ltb_lt in Hi; rewrite Hi; reflexivity.
  - vm_compute; discriminate.
Defined.

(** ** Further properties of the merger *)

Section MergeExtras.

Variable ClientError : Type.
Variable Error : Type.
Variable method_not_allowed : ClientError -> bool.
Variable conflict : ClientError -> bool.
Variable error_of_client : ClientError -> Error.
Variable pull_request : PullRequest.
Variable github : GithubClient ClientError.

Local Abbreviation merge_loop :=
  (merge_loop ClientError Error method_not_allowed conflict error_of_client).

Lemma merge_loop_err_last ms (l0 new : Submissions ClientError) x :
  merge_loop pull_request github ms l0 = (Err x, l0 ++ new) ->
  exists pre req e, new = pre ++ [(req, Err e)] /\
    method_not_allowed e = false /\ conflict e = false /\ x = error_of_client e.
Proof.
  revert l0 new; induction ms as [|m rest IH]; intros l0 new H.
  - apply merge_loop_nil in H; destruct H as [_ H]; discriminate.
  - apply merge_loop_cons in H.
    destruct H as [(a & Hx & Hnew & Hr)
                  | [(e & new' & Hx & Hm & Hnew & Hrec)
                  | [(e & Hx & Hm & Hc & Hnew & Hr)
                    | (e & Hx & Hm & Hc & Hnew & Hr)]]];
      simpl in Hx; try discriminate.
    + destruct (IH _ _ Hrec) as (pre & req & e' & -> & H1 & H2 & H3).
      subst new; eexists (_ :: pre), req, e'; split; [reflexivity|auto].
    + injection Hr as ->; subst new; rewrite Hx.
      exists [], (request_body pull_request m), e; auto.
Qed.

Lemma merge_loop_conflict_last ms (l0 new : Submissions ClientError) :
  merge_loop pull_request github ms l0 = (Ok Conflict, l0 ++ new) ->
  (ms = [] /\ new = []) \/
  exists pre req e, new = pre ++ [(req, Err e)] /\
    ((method_not_allowed e = false /\ conflict e = true) \/
     (method_not_allowed e = true /\ length new = length ms)).
Proof.
  revert l0 new; induction ms as [|m rest IH]; intros l0 new H.
  - apply merge_loop_nil in H; destruct H as [-> _]; left; auto.
  - right; apply merge_loop_cons in H.
    destruct H as [(a & Hx & Hnew & Hr)
                  | [(e & new' & Hx & Hm & Hnew & Hrec)
                  | [(e & Hx & Hm & Hc & Hnew & Hr)
                    | (e & Hx & Hm & Hc & Hnew & Hr)]]];
      simpl in Hx; try discriminate.
    + destruct (IH _ _ Hrec) as [[-> ->] | (pre & req & e' & Hn & Hcase)].
      * subst new; rewrite Hx.
        exists [], (request_body pull_request m), e; split; [reflexivity|].
        right; auto.
      * subst new new'; eexists (_ :: pre), req, e'; split; [reflexivity|].
        destruct Hcase as [Hc|[Hm' Hl]]; [left; exact Hc|right; split; [exact Hm'|]].
        simpl; rewrite <- Hl; reflexivity.
    + subst new; rewrite Hx.
      exists [], (request_body pull_request m), e; split; [reflexivity|left; auto].
Qed.

End MergeExtras.

Section MergeExtraClaims.

Variable ClientError : Type.
Variable Error : Type.
Variable method_not_allowed : ClientError -> bool.
Variable conflict : ClientError -> bool.
Variable error_of_client : ClientError -> Error.
Variable self : DefaultPullRequestMerger.
Variable pull_request : PullRequest.
Variable github : GithubClient ClientError.

(** [merge] makes at most one submission per method of its list and at
    least one when the list is not empty; with an empty list it submits
    nothing and returns [Ok(Conflict)]. *)
Theorem merge_submission_count r log :
  DefaultPullRequestMerger_merge ClientError Error method_not_allowed conflict
    error_of_client self pull_request github [] = (r, log) ->
  length log <= length (merge_methods self) /\
  (merge_methods self <> [] -> log <> []) /\
  (merge_methods self = [] -> r = Ok Conflict /\ log = []).
Proof.
  intros H%merge_call_loop.
  destruct (merge_loop_extends ClientError Error method_not_allowed conflict
              error_of_client pull_request github (merge_methods self) [])
    as (new & Hs & Hl & Hne).
  rewrite H in Hs; simpl in Hs; subst new.
  split; [exact Hl|split; [exact Hne|]].
  intros Hm; rewrite Hm in H; apply merge_loop_nil in H; destruct H; auto.
Qed.

(** Every submission of a call but the last was refused with an error
    classified as method-not-allowed. *)
Theorem merge_earlier_submissions_not_allowed r log i req resp :
  DefaultPullRequestMerger_merge ClientError Error method_not_allowed conflict
    error_of_client self pull_request github [] = (r, log) ->
  nth_error log i = Some (req, resp) ->
  S i < length log ->
  exists e, resp = Err e /\ method_not_allowed e = true.
Proof.
  intros H%merge_call_loop Hi Hlt.
  destruct (merge_loop_attempt _ _ _ _ _ _ _ _ _ _ _ _ _ H Hi)
    as (m & _ & _ & _ & Ho).
  unfold attempt_outcome in Ho; simpl in Ho.
  destruct resp as [u|e]; [destruct Ho; lia|].
  destruct (method_not_allowed e) eqn:Hm; [eauto|].
  destruct (conflict e); destruct Ho; lia.
Qed.

(** [merge] returns [Err] only with the converted error of its last
    submission, an error classified neither as method-not-allowed nor as
    conflict. *)
Theorem merge_err_comes_from_last_submission x log :
  DefaultPullRequestMerger_merge ClientError Error method_not_allowed conflict
    error_of_client self pull_request github [] = (Err x, log) ->
  exists pre req e, log = pre ++ [(req, Err e)] /\
    method_not_allowed e = false /\ conflict e = false /\ x = error_of_client e.
Proof. intros H%merge_call_loop; eapply merge_loop_err_last; exact H. Qed.

(** [merge] returns [Ok(Conflict)] only when the method list is empty, when
    its last submission was refused as a conflict (and not as
    method-not-allowed), or when every method was tried and the last one
    was refused as not allowed. *)
Theorem merge_conflict_reasons log :
  DefaultPullRequestMerger_merge ClientError Error method_not_allowed conflict
    error_of_client self pull_request github [] = (Ok Conflict, log) ->
  (merge_methods self = [] /\ log = []) \/
  exists pre req e, log = pre ++ [(req, Err e)] /\
    ((method_not_allowed e = false /\ conflict e = true) \/
     (method_not_allowed e = true /\ length log = length (merge_methods self))).
Proof. intros H%merge_call_loop; eapply merge_loop_conflict_last; exact H. Qed.

End MergeExtraClaims.

(** ** Assembly in [main] *)

Lemma NoDup_firstn_of {A} (n : nat) (l : list A) : NoDup l -> NoDup (firstn n l).
Proof.
  intros H; rewrite <- (firstn_skipn n l) in H; exact (NoDup_app_remove_r _ _ H).
Qed.

(** Every merge call of a merger [main] selected outside dry-run mode makes
    between one and three submissions, the first with the configured
    default method and no method twice. *)
Lemma selected_default_merger_submissions (ClientError Error : Type)
    (method_not_allowed conflict : ClientError -> bool)
    (error_of_client : ClientError -> Error) (merge : MergeConfig)
    (pull_request : PullRequest) (github : GithubClient ClientError) merger r log :
  select_merger false merge = Some merger ->
  AnyMerger_merge ClientError Error method_not_allowed conflict error_of_client
    merger pull_request github [] = (r, log) ->
  1 <= length log <= 3 /\
  NoDup (map (fun p => merge_method (fst p)) log) /\
  exists p, hd_error log = Some p /\ merge_method (fst p) = default_method merge.
Proof.
  unfold select_merger, new_DefaultPullRequestMerger.
  destruct (build_merge_methods_permutation (default_method merge))
    as (ms & Hb & Hlen & Hhd & Hcount).
  rewrite Hb; simpl; intros Hsel; injection Hsel as <-; simpl.
  intros H.
  pose proof H as H'; apply merge_call_loop in H'.
  apply (merge_loop_requests ClientError Error method_not_allowed conflict
           error_of_client pull_request github) in H' as Hreq.
  destruct (merge_submission_count _ _ _ _ _ _ _ _ _ _ H) as (Hl & Hne & _).
  simpl in Hl, Hne.
  assert (Hnil : ms <> []) by (intros ->; discriminate).
  specialize (Hne Hnil).
  assert (Hmeth : map (fun p => merge_method (fst p)) log = firstn (length log) ms).
  { rewrite <- map_map, Hreq, map_map; simpl.
    rewrite <- (map_id (firstn _ _)) at 2; apply map_ext; reflexivity. }
  split; [destruct log; [congruence|simpl in *; lia]|split].
  - rewrite Hmeth; apply NoDup_firstn_of.
    apply (NoDup_count_occ' MergeMethod_eq_dec); intros m _; rewrite Hcount; lia.
  - destruct log as [|p log']; [congruence|]; exists p; split; [reflexivity|].
    destruct ms as [|m ms']; [congruence|]; simpl in Hmeth, Hhd.
    injection Hmeth as Hp _; injection Hhd as <-; exact Hp.
Qed.

(** Outside dry-run mode, [main] builds its merger without panicking, and
    every merge call of that merger makes between one and three
    submissions, the first with the configured default method and no
    method twice. *)
Theorem default_merger_submissions (ClientError Error : Type)
    (method_not_allowed conflict : ClientError -> bool)
    (error_of_client : ClientError -> Error) (merge : MergeConfig) :
  exists merger, select_merger false merge = Some merger /\
    forall (pull_request : PullRequest) (github : GithubClient ClientError) r log,
      AnyMerger_merge ClientError Error method_not_allowed conflict error_of_client
        merger pull_request github [] = (r, log) ->
      1 <= length log <= 3 /\
      NoDup (map (fun p => merge_method (fst p)) log) /\
      exists p, hd_error log = Some p /\ merge_method (fst p) = default_method merge.
Proof.
  destruct (build_merge_methods_permutation (default_method merge))
    as (ms & Hb & _ & _ & _).
  exists (DefaultMerger {| merge_methods := ms |}).
  assert (Hsel : select_merger false merge = Some (DefaultMerger {| merge_methods := ms |}))
    by (unfold select_merger, new_DefaultPullRequestMerger; rewrite Hb; reflexivity).
  split; [exact Hsel|].
  intros pull_request github r log H.
  eapply selected_default_merger_submissions; [exact Hsel|exact H].
Qed.

(** With the default merge configuration, the merger built outside
    dry-run mode tries [Merge], then [Squash], then [Rebase]. *)
Theorem default_config_merge_order :
  select_merger false MergeConfig_default =
  Some (DefaultMerger {| merge_methods := [Merge; Squash; Rebase] |}).
Proof. reflexivity. Qed.


(** ** Shape of the driving loop's trace *)

Section LoopTrace.

Variable Error : Type.
Variable run : nat -> result DirectorState Error.
Variable delay_seconds : nat.

Local Abbreviation main_loop := (main_loop Error run delay_seconds).

(** The loop sleeps after every run but the one that ends it, and always
    for the configured number of seconds. *)
Theorem main_loop_sleeps_between_runs (fuel k : nat) :
  length (filter (fun ev => match ev with Slept _ => true | _ => false end)
            (fst (main_loop fuel k)))
  + (if snd (main_loop fuel k) then 1 else 0) =
  length (filter (fun ev => match ev with RunCalled => true | _ => false end)
            (fst (main_loop fuel k))) /\
  (forall s, In (Slept s) (fst (main_loop fuel k)) -> s = delay_seconds).
Proof.
  revert k; induction fuel as [|fuel IH]; intros k; simpl.
  - split; [reflexivity|contradiction].
  - destruct (run k) as [[|]|e]; simpl.
    + destruct (IH (S k)) as [Hc Hs].
      destruct (main_loop fuel (S k))
        as [events exited]; simpl in *.
      split; [lia|].
      intros s [Hs'|[Hs'|Hs']]; [discriminate|injection Hs' as <-; reflexivity|auto].
    + split; [reflexivity|intros s [H|H]; [discriminate|contradiction]].
    + split; [reflexivity|intros s [H|[H|H]]; try discriminate; contradiction].
Qed.

(** The loop reports an error exactly when, within its iterations, a run
    returns [Err] after runs that all returned [Ok(Waiting)]. *)
Theorem main_loop_reports_error_iff (fuel k : nat) :
  In ErrorReported (fst (main_loop fuel k)) <->
  exists n e, n < fuel /\ (forall i, i < n -> run (k + i) = Ok Waiting) /\
    run (k + n) = Err e.
Proof.
  revert k; induction fuel as [|fuel IH]; intros k; simpl.
  - split; [contradiction|intros (n & e & Hn & _); lia].
  - destruct (run k) as [[|]|e] eqn:Hk.
    + destruct (main_loop fuel (S k))
        as [events exited] eqn:Hl; simpl.
      specialize (IH (S k)); rewrite Hl in IH; cbn [fst] in IH.
      split.
      * intros [H|[H|H]]; try discriminate.
        destruct (proj1 IH H) as (n & e & Hn & Hw & He).
        exists (S n), e; split; [lia|split].
        -- intros [|i] Hi; [rewrite Nat.add_0_r; exact Hk|].
           replace (k + S i) with (S k + i) by lia; apply Hw; lia.
        -- replace (k + S n) with (S k + n) by lia; exact He.
      * intros ([|n] & e & Hn & Hw & He).
        -- rewrite Nat.add_0_r, Hk in He; discriminate.
        -- right; right; apply (proj2 IH); exists n, e; split; [lia|split].
           ++ intros i Hi; replace (S k + i) with (k + S i) by lia; apply Hw; lia.
           ++ replace (S k + n) with (k + S n) by lia; exact He.
    + simpl; split; [intros [H|H]; [discriminate|contradiction]|].
      intros ([|n] & e & Hn & Hw & He).
      * rewrite Nat.add_0_r, Hk in He; discriminate.
      * specialize (Hw 0 ltac:(lia)); rewrite Nat.add_0_r, Hk in Hw; discriminate.
    + simpl; split; [intros _; exists 0, e; split; [lia|split]|auto].
      * intros i Hi; lia.
      * rewrite Nat.add_0_r; exact Hk.
Qed.

End LoopTrace.

(** ** Witnesses of the further properties *)

Lemma merge_submission_count_witness :
  length (snd scenario_exhausted) <= length (merge_methods (merger_of Rebase)) /\
  (merge_methods (merger_of Rebase) <> [] -> snd scenario_exhausted <> []) /\
  (merge_methods (merger_of Rebase) = [] ->
     fst scenario_exhausted = Ok Conflict /\ snd scenario_exhausted = []).
Proof.
  apply (merge_submission_count nat nat http_method_not_allowed http_conflict
           (fun status => status) (merger_of Rebase) sample_pull_request
           (replay_client [Err 405; Err 405; Err 405])).
  reflexivity.
Defined.

Lemma merge_earlier_submissions_not_allowed_witness :
  exists e, (Err 405 : result unit nat) = Err e /\ http_method_not_allowed e = true.
Proof.
  apply (merge_earlier_submissions_not_allowed nat nat http_method_not_allowed
           http_conflict (fun status => status) (merger_of Merge) sample_pull_request
           (replay_client [Err 405; Err 409])
           (fst scenario_conflict) (snd scenario_conflict) 0
           (request_body sample_pull_request Merge) (Err 405)).
  - reflexivity.
  - reflexivity.
  - vm_compute; lia.
Defined.

Lemma merge_err_comes_from_last_submission_witness :
  exists pre req e, snd scenario_fatal = pre ++ [(req, Err e)] /\
    http_method_not_allowed e = false /\ http_conflict e = false /\ 500 = e.
Proof.
  apply (merge_err_comes_from_last_submission nat nat http_method_not_allowed
           http_conflict (fun status => status) (merger_of Rebase) sample_pull_request
           (replay_client [Err 405; Err 500]) 500 (snd scenario_fatal)).
  reflexivity.
Defined.

Lemma merge_conflict_reasons_witness :
  (merge_methods (merger_of Merge) = [] /\ snd scenario_conflict = []) \/
  exists pre req e, snd scenario_conflict = pre ++ [(req, Err e)] /\
    ((http_method_not_allowed e = false /\ http_conflict e = true) \/
     (http_method_not_allowed e = true /\
      length (snd scenario_conflict) = length (merge_methods (merger_of Merge)))).
Proof.
  apply (merge_conflict_reasons nat nat http_method_not_allowed
           http_conflict (fun status => status) (merger_of Merge) sample_pull_request
           (replay_client [Err 405; Err 409]) (snd scenario_conflict)).
  reflexivity.
Defined.

(** ** The conflict arm under the spec's classification *)

(** C4: with the spec's classification of client errors, a submission
    refused with a conflict makes [merge] return [Ok(Conflict)] at once:
    it is the last submission of the call, and no remaining method is
    tried. *)
Theorem merge_conflict_stops_immediately (Other Error : Type)
    (error_of_client : ClassifiedError Other -> Error)
    (self : DefaultPullRequestMerger) (pull_request : PullRequest)
    (github : GithubClient (ClassifiedError Other)) r log i req e :
  DefaultPullRequestMerger_merge (ClassifiedError Other) Error
    classified_method_not_allowed classified_conflict error_of_client
    self pull_request github [] = (r, log) ->
  nth_error log i = Some (req, Err e) ->
  classified_conflict e = true ->
  r = Ok Conflict /\ length log = S i.
Proof.
  intros H Hi Hc.
  eapply merge_conflict_returns_immediately; [exact H|exact Hi| |exact Hc].
  destruct e; [discriminate|reflexivity|discriminate].
Qed.

Lemma merge_conflict_stops_immediately_witness :
  fst scenario_classified_conflict = Ok Conflict /\
  length (snd scenario_classified_conflict) = 2.
Proof.
  apply (merge_conflict_stops_immediately nat (ClassifiedError nat) (fun e => e)
           (merger_of Merge) sample_pull_request
           (replay_classified [Err MethodNotAllowed; Err HeadShaConflict])
           (fst scenario_classified_conflict) (snd scenario_classified_conflict) 1
           (request_body sample_pull_request Squash) HeadShaConflict);
    reflexivity.
Defined.
